(** * Multi-property inequality filtering (mip.py)

    A shallow embedding of [MultiPropInequality]: the wrapper that lets a
    datastore query carry inequality filters on several properties by pushing
    to the backend what the backend accepts and evaluating the rest on every
    result as it streams back.

    Layout: Python values and exceptions; the ndb filter-node tree; the
    collaborators outside the file (ndb queries, the model schema, the
    interpreter's rich comparison) as a type class; the methods of the class,
    one definition per method, with the instance state threaded explicitly;
    then the properties. *)

From stdpp Require Import base strings list gmap.
From Stdlib Require Import ZArith.

Set Warnings "-register-all".

Open Scope Z_scope.
Open Scope string_scope.
Open Scope list_scope.

(** ** Python values *)

(** [datetime.date] and [datetime.time]. *)
Record date := Date { year : Z; month : Z; day : Z }.
Record time := Time { hour : Z; minute : Z; second : Z; microsecond : Z }.

(** The scalars a property or a filter value can hold.  A [datetime.datetime]
    is a date together with a time of day. *)
Inductive Value :=
| VNone
| VInt (n : Z)
| VStr (s : string)
| VDatetime (d : date) (t : time)
| VDate (d : date)
| VTime (t : time).

#[global] Instance date_eq_dec : EqDecision date.
Proof. solve_decision. Defined.
#[global] Instance time_eq_dec : EqDecision time.
Proof. solve_decision. Defined.
#[global] Instance Value_eq_dec : EqDecision Value.
Proof. solve_decision. Defined.

(** [datetime.time()] and [datetime.date()] of a combined value. *)
Definition datetime_time (d : date) (t : time) : Value := VTime t.
Definition datetime_date (d : date) (t : time) : Value := VDate d.

(** The exceptions that occur in the file or cross it. *)
Inductive Exn := TypeError | NotImplementedError | KeyError | AttributeError.

#[global] Instance Exn_eq_dec : EqDecision Exn.
Proof. solve_decision. Defined.

(** A computation that returns or raises. *)
Inductive Exc (A : Type) :=
| Ok (a : A)
| Raise (e : Exn).
Arguments Ok {A} a.
Arguments Raise {A} e.

#[global] Instance Exc_ret : MRet Exc := λ A a, Ok a.
#[global] Instance Exc_bind : MBind Exc := λ A B f c,
  match c with
  | Ok a => f a
  | Raise e => Raise e
  end.

(** The six comparisons a closure can perform. *)
Inductive CmpOp := Gt | Lt | Ge | Le | Ne | Eq.

(** ** Filter nodes

    The subclasses of [ndb.query.Node].  A [FilterNode] keeps its property
    name, operator symbol and value; a [ParameterNode] is a comparison whose
    value is a parameter bound when the query runs, and keeps the name of its
    property, its operator symbol and the key of the parameter; conjunctions
    and disjunctions iterate over their sub-nodes in order. *)
Inductive Node :=
| FalseNode
| ParameterNode (name : string) (opsymbol : string) (key : Value)
| FilterNode (name : string) (opsymbol : string) (value : Value)
| ConjunctionNode (nodes : list Node)
| DisjunctionNode (nodes : list Node).

(** Induction over the tree, with the hypothesis for every sub-node. *)
Section Node_induction.
Variable P : Node → Prop.
Hypothesis HFalse : P FalseNode.
Hypothesis HParam : ∀ name opsymbol key, P (ParameterNode name opsymbol key).
Hypothesis HFilter : ∀ name opsymbol value, P (FilterNode name opsymbol value).
Hypothesis HConj : ∀ nodes, Forall P nodes → P (ConjunctionNode nodes).
Hypothesis HDisj : ∀ nodes, Forall P nodes → P (DisjunctionNode nodes).

Fixpoint Node_tree_ind (n : Node) : P n :=
  let fix children (ns : list Node) : Forall P ns :=
    match ns with
    | [] => List.Forall_nil P
    | m :: ms => List.Forall_cons P m ms (Node_tree_ind m) (children ms)
    end in
  match n with
  | FalseNode => HFalse
  | ParameterNode name opsymbol key => HParam name opsymbol key
  | FilterNode name opsymbol value => HFilter name opsymbol value
  | ConjunctionNode nodes => HConj nodes (children nodes)
  | DisjunctionNode nodes => HDisj nodes (children nodes)
  end.
End Node_induction.

(** The dictionary [_node_to_dict] builds: keys [name], [symbol], [value]. *)
Record FilterDict := mkFilterDict {
  fd_name : string;
  fd_symbol : string;
  fd_value : Value
}.

(** A result of the underlying query: an object with attributes.  An entity
    whose model declares a property it holds no value for has the attribute,
    with value [None]; an attribute the object does not have is absent from
    the map. *)
Abbreviation Entity := (gmap string Value).

(** ** Collaborators outside the file

    [ndb] queries and models, the model schema behind
    [ndb.Model._kind_map], and the interpreter's rich comparison of two
    values are not part of mip.py; the development is parametric in them. *)
Class Host := {
  (** instances of [ndb.model.MetaModel] and of [ndb.query.Query] *)
  MetaModel : Type;
  Query : Type;
  (** [model.query()] *)
  model_query : MetaModel → Query;
  (** [query.filters]: a node, or [None] *)
  query_filters : Query → option Node;
  (** [query.filter(node)]: a new query *)
  query_filter : Query → Node → Query;
  (** [query.kind] *)
  query_kind : Query → string;
  (** the results obtained by iterating over the query *)
  query_results : Query → list Entity;
  (** [ndb.Model._kind_map[kind]._properties[name].__class__.__name__];
      [None] when one of the two lookups raises [KeyError] *)
  property_class : string → string → option string;
  (** [a > b], [a < b], ... on two values *)
  richcmp : CmpOp → Value → Value → Exc bool
}.

(** Whatever a caller can pass where the code tests with [isinstance]. *)
Inductive PyObj `{Host} :=
| ONode (n : Node)
| OQuery (q : Query)
| OModel (m : MetaModel)
| OValue (v : Value).

Module MultiPropInequality.
Section Methods.
Context `{Host}.

(** The instance attributes. *)
Record MIP := mkMIP {
  query : Query;
  first_inequality : option FilterDict;
  post_inq_filters : list Node
}.

(** [_node_to_dict], on the three attributes of a [FilterNode] (its only
    callers have tested [isinstance(f_node, FilterNode)]). *)
Definition _node_to_dict (name opsymbol : string) (value : Value) : FilterDict :=
  {| fd_name := name; fd_symbol := opsymbol; fd_value := value |}.

(** [_get_inequalities]: a node of any other class contributes nothing. *)
Fixpoint _get_inequalities (f_node : Node) : list FilterDict :=
  match f_node with
  | DisjunctionNode nodes | ConjunctionNode nodes =>
      flat_map _get_inequalities nodes
  | FilterNode name opsymbol value =>
      let filter_dict := _node_to_dict name opsymbol value in
      if String.eqb (fd_symbol filter_dict) "=" then [] else [filter_dict]
  | _ => []
  end.

(** [_get_first_inequality]; the argument is [query.filters], which is
    [None] for a query without filters, and [None] is no node. *)
Definition _get_first_inequality (f_node : option Node) : option FilterDict :=
  let inequalities :=
    match f_node with
    | Some n => _get_inequalities n
    | None => []
    end in
  head inequalities.

(** [__init__] *)
Definition __init__ (model_or_query : PyObj) : Exc MIP :=
  q ← match model_or_query with
      | OModel m => Ok (model_query m)
      | OQuery q => Ok q
      | _ => Raise TypeError
      end;
  Ok {| query := q;
        first_inequality := _get_first_inequality (query_filters q);
        post_inq_filters := [] |}.

(** The loop of [_push_filter] over the inequalities of the node: the
    value of [self.first_inequality] and of [push_to_post] when it ends. *)
Fixpoint scan_inequalities (first : option FilterDict)
    (inequalities : list FilterDict) : option FilterDict * bool :=
  match inequalities with
  | [] => (first, false)
  | inq :: rest =>
      match first with
      | None => scan_inequalities (Some inq) rest
      | Some f =>
          if negb (String.eqb (fd_name f) (fd_name inq))
          then (first, true)
          else scan_inequalities first rest
      end
  end.

(** [_push_filter]: the returned flag and the instance afterwards. *)
Definition _push_filter (filter_node : Node) (self : MIP) : bool * MIP :=
  let inequalities := _get_inequalities filter_node in
  let '(first, push_to_post) :=
    scan_inequalities (first_inequality self) inequalities in
  (push_to_post,
   {| query := query self;
      first_inequality := first;
      post_inq_filters :=
        if push_to_post then post_inq_filters self ++ [filter_node]
        else post_inq_filters self |}).

(** The loop of [filter] over its arguments.  The instance is updated in
    place, so the state reached when an argument is refused is the state
    the caller is left with. *)
Fixpoint filter_loop (args : list PyObj) (self : MIP) : Exc () * MIP :=
  match args with
  | [] => (Ok (), self)
  | arg :: rest =>
      match arg with
      | ONode n =>
          let '(pushed, self1) := _push_filter n self in
          let self2 :=
            if pushed then self1
            else {| query := query_filter (query self1) n;
                    first_inequality := first_inequality self1;
                    post_inq_filters := post_inq_filters self1 |} in
          filter_loop rest self2
      | _ => (Raise TypeError, self)
      end
  end.

(** [filter] *)
Definition filter (args : list PyObj) (self : MIP) : Exc () * MIP :=
  match args with
  | [] => (Ok (), self)
  | _ => filter_loop args self
  end.

(** ** Evaluators *)

(** What the closures are: functions of a result that return or raise. *)
Definition Evaluator : Type := Entity → Exc bool.

(** [getattr(x, name)] *)
Definition getattr (x : Entity) (name : string) : Exc Value :=
  match x !! name with
  | Some v => Ok v
  | None => Raise AttributeError
  end.

(** [lambda x: getattr(x, f_d['name']) <op> f_d['value']] *)
Definition compare_attr (op : CmpOp) (f_d : FilterDict) : Evaluator :=
  λ x, v ← getattr x (fd_name f_d); richcmp op v (fd_value f_d).

(** [make_closure], local to [_make_evaluator] *)
Definition make_closure (f_d : FilterDict) : Exc Evaluator :=
  if String.eqb (fd_symbol f_d) ">" then Ok (compare_attr Gt f_d)
  else if String.eqb (fd_symbol f_d) "<" then Ok (compare_attr Lt f_d)
  else if String.eqb (fd_symbol f_d) ">=" then Ok (compare_attr Ge f_d)
  else if String.eqb (fd_symbol f_d) "<=" then Ok (compare_attr Le f_d)
  else if String.eqb (fd_symbol f_d) "!=" then Ok (compare_attr Ne f_d)
  else if String.eqb (fd_symbol f_d) "=" then Ok (compare_attr Eq f_d)
  else Raise NotImplementedError.

(** The conversion of [f_dict['value']] by the class name of the property:
    a [datetime] goes back to a time or to a date. *)
Definition convert_value (prop_type : string) (f_dict : FilterDict) : FilterDict :=
  if String.eqb prop_type "TimeProperty" then
    match fd_value f_dict with
    | VDatetime d t =>
        {| fd_name := fd_name f_dict; fd_symbol := fd_symbol f_dict;
           fd_value := datetime_time d t |}
    | _ => f_dict
    end
  else if String.eqb prop_type "DateProperty" then
    match fd_value f_dict with
    | VDatetime d t =>
        {| fd_name := fd_name f_dict; fd_symbol := fd_symbol f_dict;
           fd_value := datetime_date d t |}
    | _ => f_dict
    end
  else f_dict.

(** [_make_evaluator], on the attributes of the [FilterNode] *)
Definition _make_evaluator (self : MIP) (name opsymbol : string)
    (value : Value) : Exc Evaluator :=
  let f_dict := _node_to_dict name opsymbol value in
  prop_type ← match property_class (query_kind (query self)) (fd_name f_dict) with
              | Some c => Ok c
              | None => Raise KeyError
              end;
  make_closure (convert_value prop_type f_dict).

(** [and_evaluators], the closure of [_make_and_evaluator] *)
Fixpoint and_evaluators (post_evals : list Evaluator) (x : Entity) : Exc bool :=
  match post_evals with
  | [] => Ok true
  | p_eval :: rest =>
      b ← p_eval x;
      if negb b then Ok false else and_evaluators rest x
  end.

(** [or_evaluators], the closure of [_make_or_evaluator] *)
Fixpoint or_evaluators (post_evals : list Evaluator) (x : Entity) : Exc bool :=
  match post_evals with
  | [] => Ok false
  | p_eval :: rest =>
      b ← p_eval x;
      if (b : bool) then Ok true else or_evaluators rest x
  end.

(** A loop that extends [output] with what each element yields and stops
    at the first element that raises. *)
Definition collect {A B : Type} (f : A → Exc (list B)) : list A → Exc (list B) :=
  fix go (l : list A) : Exc (list B) :=
    match l with
    | [] => Ok []
    | a :: l' =>
        match f a with
        | Ok bs =>
            match go l' with
            | Ok bs' => Ok (bs ++ bs')
            | Raise e => Raise e
            end
        | Raise e => Raise e
        end
    end.

(** One turn of the loop of [_check_node]: what the sub-node [f_n] appends
    to [output].  Building the evaluator of a conjunction or disjunction
    checks its own sub-nodes first. *)
Fixpoint check_subnode (self : MIP) (f_n : Node) : Exc (list Evaluator) :=
  match f_n with
  | ConjunctionNode nodes =>
      post_evals ← collect (check_subnode self) nodes;
      Ok [and_evaluators post_evals]
  | DisjunctionNode nodes =>
      post_evals ← collect (check_subnode self) nodes;
      Ok [or_evaluators post_evals]
  | FilterNode name opsymbol value =>
      e ← _make_evaluator self name opsymbol value;
      Ok [e]
  | _ => Ok []
  end.

(** [_check_node]; [a_node] is iterated over, be it a node or the list of
    post filters. *)
Definition _check_node (self : MIP) (a_node : list Node) : Exc (list Evaluator) :=
  collect (check_subnode self) a_node.

(** [_make_and_evaluator] *)
Definition _make_and_evaluator (self : MIP) (con_node : list Node) : Exc Evaluator :=
  post_evals ← _check_node self con_node;
  Ok (and_evaluators post_evals).

(** [_make_or_evaluator] *)
Definition _make_or_evaluator (self : MIP) (dis_node : list Node) : Exc Evaluator :=
  post_evals ← _check_node self dis_node;
  Ok (or_evaluators post_evals).

(** ** Iteration *)

(** What a consumer of the generator sees: the results yielded, and the
    exception that ended the iteration if one did. *)
Definition Stream : Type := list Entity * option Exn.

(** The loop of [__iter__] over the results of the query. *)
Fixpoint iter_loop (post_evaluator : Evaluator) (results : list Entity) : Stream :=
  match results with
  | [] => ([], None)
  | result :: rest =>
      match post_evaluator result with
      | Ok true =>
          let '(yielded, ended) := iter_loop post_evaluator rest in
          (result :: yielded, ended)
      | Ok false => iter_loop post_evaluator rest
      | Raise TypeError => iter_loop post_evaluator rest
      | Raise e => ([], Some e)
      end
  end.

(** [__iter__] *)
Definition __iter__ (self : MIP) : Stream :=
  match _make_and_evaluator self (post_inq_filters self) with
  | Ok post_evaluator => iter_loop post_evaluator (query_results (query self))
  | Raise e => ([], Some e)
  end.

End Methods.
End MultiPropInequality.

(** ** A host to run the definitions on

    Queries that record the filters attached to them and carry the results
    the backend hands back; a schema for one kind; comparison of values by
    the rules of Python 3 (equality across classes is [False], an ordering
    across classes or on [None] raises [TypeError]). *)
Module ListHost.

Record ListQuery := mkQuery {
  q_kind : string;
  q_filters : list Node;
  q_rows : list Entity
}.

Definition filters_of (q : ListQuery) : option Node :=
  match q_filters q with
  | [] => None
  | [n] => Some n
  | ns => Some (ConjunctionNode ns)
  end.

Definition add_filter (q : ListQuery) (n : Node) : ListQuery :=
  {| q_kind := q_kind q; q_filters := q_filters q ++ [n]; q_rows := q_rows q |}.

Definition schema (kind name : string) : option string :=
  if String.eqb kind "Employee" then
    if String.eqb name "salary" then Some "IntegerProperty"
    else if String.eqb name "age" then Some "IntegerProperty"
    else if String.eqb name "department" then Some "StringProperty"
    else if String.eqb name "hired" then Some "DateTimeProperty"
    else if String.eqb name "shift" then Some "TimeProperty"
    else if String.eqb name "birthday" then Some "DateProperty"
    else None
  else None.

Definition date_key (d : date) : list Z := [year d; month d; day d].
Definition time_key (t : time) : list Z :=
  [hour t; minute t; second t; microsecond t].

Fixpoint key_compare (a b : list Z) : comparison :=
  match a, b with
  | [], [] => Datatypes.Eq
  | [], _ => Datatypes.Lt
  | _, [] => Datatypes.Gt
  | x :: a', y :: b' =>
      match Z.compare x y with
      | Datatypes.Eq => key_compare a' b'
      | c => c
      end
  end.

(** The three-way comparison of two values of one class. *)
Definition same_class_compare (a b : Value) : option comparison :=
  match a, b with
  | VInt x, VInt y => Some (Z.compare x y)
  | VStr x, VStr y => Some (String.compare x y)
  | VDatetime d t, VDatetime d' t' =>
      Some (key_compare (date_key d ++ time_key t) (date_key d' ++ time_key t'))
  | VDate d, VDate d' => Some (key_compare (date_key d) (date_key d'))
  | VTime t, VTime t' => Some (key_compare (time_key t) (time_key t'))
  | _, _ => None
  end.

Definition value_eqb (a b : Value) : bool :=
  match a, b with
  | VNone, VNone => true
  | _, _ =>
      match same_class_compare a b with
      | Some Datatypes.Eq => true
      | _ => false
      end
  end.

Definition py3_richcmp (op : CmpOp) (a b : Value) : Exc bool :=
  match op with
  | Eq => Ok (value_eqb a b)
  | Ne => Ok (negb (value_eqb a b))
  | _ =>
      match same_class_compare a b with
      | None => Raise TypeError
      | Some c =>
          Ok match op, c with
             | Gt, Datatypes.Gt | Lt, Datatypes.Lt => true
             | Ge, (Datatypes.Gt | Datatypes.Eq) => true
             | Le, (Datatypes.Lt | Datatypes.Eq) => true
             | _, _ => false
             end
      end
  end.

#[global] Instance list_host : Host := {|
  MetaModel := string;
  Query := ListQuery;
  model_query := λ kind, {| q_kind := kind; q_filters := []; q_rows := [] |};
  query_filters := filters_of;
  query_filter := add_filter;
  query_kind := q_kind;
  query_results := q_rows;
  property_class := schema;
  richcmp := py3_richcmp
|}.

End ListHost.

Import MultiPropInequality.

(** ** Vocabulary of the statements *)

(** The comparisons at the leaves of a tree, from left to right: those of
    its [FilterNode]s, the only ones the code reads. *)
Fixpoint leaves (n : Node) : list FilterDict :=
  match n with
  | FilterNode name opsymbol value => [mkFilterDict name opsymbol value]
  | ConjunctionNode nodes | DisjunctionNode nodes => flat_map leaves nodes
  | _ => []
  end.

(** A comparison that is not an equality. *)
Definition is_inequality (c : FilterDict) : bool :=
  negb (String.eqb (fd_symbol c) "=").

(** The classifier as the specification words it: the leaf comparisons
    whose operator is not [=], in child order. *)
Definition extractInequalities (n : Node) : list FilterDict :=
  List.filter is_inequality (leaves n).

(** A tree all of whose comparisons are equalities; a node of another class
    than the three the code tests for holds none that counts. *)
Fixpoint only_equalities (n : Node) : bool :=
  match n with
  | FilterNode _ opsymbol _ => String.eqb opsymbol "="
  | ConjunctionNode nodes | DisjunctionNode nodes => forallb only_equalities nodes
  | _ => true
  end.

(** A tree of conjunctions over comparisons. *)
Fixpoint and_tree (n : Node) : bool :=
  match n with
  | FilterNode _ _ _ => true
  | ConjunctionNode nodes => forallb and_tree nodes
  | _ => false
  end.

(** The operator a recognised symbol stands for. *)
Definition op_of_symbol (symbol : string) : option CmpOp :=
  if String.eqb symbol ">" then Some Gt
  else if String.eqb symbol "<" then Some Lt
  else if String.eqb symbol ">=" then Some Ge
  else if String.eqb symbol "<=" then Some Le
  else if String.eqb symbol "!=" then Some Ne
  else if String.eqb symbol "=" then Some Eq
  else None.

(** The symbols [make_closure] has a branch for. *)
Definition recognised_symbols : list string :=
  [">"; "<"; ">="; "<="; "!="; "="].

Definition is_datetime (v : Value) : bool :=
  match v with
  | VDatetime _ _ => true
  | _ => false
  end.

Section Vocabulary.
Context `{Host}.

Definition is_node (o : PyObj) : bool :=
  match o with
  | ONode _ => true
  | _ => false
  end.

Definition is_model_or_query (o : PyObj) : bool :=
  match o with
  | OModel _ | OQuery _ => true
  | _ => false
  end.

(** The name of the property of the first inequality, if there is one. *)
Definition chosen_property (self : MIP) : option string :=
  fd_name <$> first_inequality self.

(** The node holds an inequality on another property than that of [f]. *)
Definition conflicts (f : FilterDict) (n : Node) : bool :=
  existsb (λ inq, negb (String.eqb (fd_name f) (fd_name inq)))
          (_get_inequalities n).

(** A session through several calls of [filter]; a call that raises leaves
    the instance as it was when the exception left it. *)
Definition filter_calls (calls : list (list PyObj)) (self : MIP) : MIP :=
  foldl (λ s args, (filter args s).2) self calls.

(** A comparison compiled and applied on its own. *)
Definition leaf_outcome (self : MIP) (x : Entity) (c : FilterDict) : Exc bool :=
  p ← _make_evaluator self (fd_name c) (fd_symbol c) (fd_value c); p x.

(** The sub-nodes of a conjunction compiled as [_make_and_evaluator] does,
    and the evaluator applied to a result. *)
Definition conjunction_outcome (self : MIP) (nodes : list Node) (x : Entity)
    : Exc bool :=
  p ← _make_and_evaluator self nodes; p x.

(** The evaluator returns [True] on the result. *)
Definition passes (p : Evaluator) (x : Entity) : bool :=
  match p x with
  | Ok true => true
  | _ => false
  end.

(** Evaluating the result does not end the iteration. *)
Definition survivable (p : Evaluator) (x : Entity) : Prop :=
  ∀ e, p x = Raise e → e = TypeError.

(** The evaluator of a tree of conjunctions, on a result where each of
    its comparisons returns a truth value, returns their conjunction. *)
Definition conjunction_of_leaves (self : MIP) (x : Entity) (n : Node) : Prop :=
  ∀ bs : list bool,
    Forall2 (λ c b, leaf_outcome self x c = Ok b) (leaves n) bs →
    ∃ p, check_subnode self n = Ok [p] ∧ p x = Ok (forallb id bs).
End Vocabulary.

(** ** Vocabulary of the further statements *)

(** A tree of conjunctions and disjunctions over comparisons. *)
Fixpoint comparison_tree (n : Node) : bool :=
  match n with
  | FilterNode _ _ _ => true
  | ConjunctionNode nodes | DisjunctionNode nodes => forallb comparison_tree nodes
  | _ => false
  end.

(** The truth value of such a tree, given that of each comparison. *)
Fixpoint tree_value (v : FilterDict → bool) (n : Node) : bool :=
  match n with
  | FilterNode name opsymbol value => v (mkFilterDict name opsymbol value)
  | ConjunctionNode nodes => forallb (tree_value v) nodes
  | DisjunctionNode nodes => existsb (tree_value v) nodes
  | _ => true
  end.

(** The nodes [_check_node] has no branch for. *)
Definition is_ignored (n : Node) : bool :=
  match n with
  | FalseNode | ParameterNode _ _ _ => true
  | _ => false
  end.

(** The computation returned. *)
Definition returned {A : Type} (r : Exc A) : bool :=
  match r with
  | Ok _ => true
  | Raise _ => false
  end.

Section FurtherVocabulary.
Context `{Host}.

(** The comparison compiles in the session. *)
Definition leaf_compiles (self : MIP) (c : FilterDict) : bool :=
  returned (_make_evaluator self (fd_name c) (fd_symbol c) (fd_value c)).

(** The evaluators of a list of trees, on a result where each comparison
    returns a truth value, return the truth values of the trees. *)
Definition follows_structure (self : MIP) (x : Entity) (v : FilterDict → bool)
    (n : Node) : Prop :=
  comparison_tree n = true →
  (∀ c, c ∈ leaves n → leaf_outcome self x c = Ok (v c)) →
  ∃ p, check_subnode self n = Ok [p] ∧ p x = Ok (tree_value v n).
End FurtherVocabulary.

(** ** Sessions to run the statements on *)

Module Scenario.
Import ListHost.

Definition employee (department : Value) (salary age : Value) : Entity :=
  {[ "department" := department; "salary" := salary; "age" := age ]}.

Definition eng : Value := VStr "eng".

Definition department_is_eng : Node := FilterNode "department" "=" eng.
Definition salary_above : Node := FilterNode "salary" ">" (VInt 50000).
Definition age_below : Node := FilterNode "age" "<" (VInt 30).
Definition salary_dict : FilterDict := mkFilterDict "salary" ">" (VInt 50000).

(** The session [MIP(query)] starts in. *)
Definition open_session (q : ListQuery) : MIP :=
  {| query := q;
     first_inequality := _get_first_inequality (query_filters q);
     post_inq_filters := [] |}.

Definition employees (rows : list Entity) : ListQuery :=
  {| q_kind := "Employee"; q_filters := [department_is_eng]; q_rows := rows |}.

Definition candidates : list Entity :=
  [employee eng (VInt 60000) (VInt 25);
   employee eng (VInt 70000) (VInt 40);
   employee eng (VInt 55000) (VInt 29)].

Definition session0 : MIP := open_session (employees candidates).
Definition session1 : MIP := (filter [ONode salary_above] session0).2.
Definition session2 : MIP := (filter [ONode age_below] session1).2.

Definition not_a_filter : PyObj := OValue (VStr "age < 30").

(** An employee without an age, and a filter that asks for the department
    first. *)
Definition ageless : Entity := employee eng (VInt 60000) VNone.
Definition eng_or_young : Node := DisjunctionNode [department_is_eng; age_below].
Definition session_or : MIP :=
  (filter [ONode salary_above; ONode eng_or_young]
          (open_session (employees [ageless]))).2.

(** A filter that compares the hiring time with a string. *)
Definition noon : time := Time 12 0 0 0.
Definition hired_on (d : date) : Entity :=
  {[ "salary" := VInt 60000; "hired" := VDatetime d noon ]}.
Definition hired_before_text : Node := FilterNode "hired" "<" (VStr "2020-01-01").
Definition session_text : MIP :=
  (filter [ONode salary_above; ONode hired_before_text]
          (open_session (employees [hired_on (Date 2019 5 1);
                                    hired_on (Date 2021 5 1)]))).2.

(** One candidate without an age among the others, and one object that has
    no attribute [age] at all. *)
Definition session_null : MIP :=
  (filter [ONode salary_above; ONode age_below]
          (open_session
             (employees [employee eng (VInt 60000) (VInt 25); ageless;
                         employee eng (VInt 55000) (VInt 29)]))).2.
Definition no_age : Entity := {[ "salary" := VInt 65000 ]}.
Definition session_no_attribute : MIP :=
  (filter [ONode salary_above; ONode age_below]
          (open_session
             (employees [employee eng (VInt 60000) (VInt 25); no_age;
                         employee eng (VInt 55000) (VInt 29)]))).2.

Definition tilde_age : Node := FilterNode "age" "~" (VInt 30).
Definition session_tilde : MIP := (filter [ONode tilde_age] session1).2.

Definition nested : Node :=
  ConjunctionNode [salary_above; ConjunctionNode [age_below; department_is_eng]].
End Scenario.

(** ** Further sessions *)

Module FurtherScenario.
Import ListHost Scenario.

Definition age_dict : FilterDict := mkFilterDict "age" "<" (VInt 30).
Definition salary_and_age : Node := ConjunctionNode [salary_above; age_below].
Definition salary_band : Node :=
  ConjunctionNode
    [salary_above; FilterNode "salary" "<" (VInt 90000); department_is_eng].

(** A query that already filters on the salary. *)
Definition paid_employees : ListQuery :=
  {| q_kind := "Employee";
     q_filters := [department_is_eng; salary_above];
     q_rows := candidates |}.

(** A post filter on a property the schema does not know. *)
Definition nickname_below : Node := FilterNode "nickname" "<" (VStr "m").
Definition session_nickname : MIP := (filter [ONode nickname_below] session1).2.

(** A disjunction over a conjunction, and somebody from operations. *)
Definition young_and_paid_or_eng : Node :=
  DisjunctionNode [salary_and_age; department_is_eng].
Definition operator : Entity := employee (VStr "ops") (VInt 70000) (VInt 40).

(** An operator that is none of the six, on a property the schema does
    not know. *)
Definition tilde_nickname : Node := FilterNode "nickname" "~" (VStr "m").
Definition session_tilde_nickname : MIP :=
  (filter [ONode tilde_nickname] session1).2.

(** Somebody not hired yet, and a filter on the hiring time. *)
Definition hired_dict : FilterDict :=
  mkFilterDict "hired" "<" (VDatetime (Date 2020 1 1) noon).
Definition hired_before : Node :=
  FilterNode "hired" "<" (VDatetime (Date 2020 1 1) noon).
Definition unhired : Entity :=
  {[ "salary" := VInt 40000; "hired" := VNone ]}.

(** A parameterised comparison on the age. *)
Definition age_below_parameter : Node := ParameterNode "age" "<" (VInt 1).

(** The truth value a comparison has on a result when it has one. *)
Definition truth_on (self : MIP) (x : Entity) (c : FilterDict) : bool :=
  match leaf_outcome self x c with
  | Ok true => true
  | _ => false
  end.
End FurtherScenario.

(** ** The classifier *)

Lemma get_inequalities_leaves (n : Node) :
  _get_inequalities n = extractInequalities n.
Proof.
  unfold extractInequalities.
  induction n as [| |name opsymbol value|nodes IH|nodes IH] using Node_tree_ind;
    try reflexivity.
  - cbn. unfold is_inequality. cbn. by destruct (String.eqb opsymbol "=").
  - cbn. induction IH as [|m ms Hm _ IHms]; [done|].
    cbn. by rewrite List.filter_app, Hm, IHms.
  - cbn. induction IH as [|m ms Hm _ IHms]; [done|].
    cbn. by rewrite List.filter_app, Hm, IHms.
Qed.

(** C7. [_get_inequalities] returns exactly the comparisons of the tree
    whose operator is not [=], from left to right: a comparison yields
    itself alone, or nothing when its operator is [=]; a conjunction or
    disjunction yields the concatenation, in child order, of what its
    sub-nodes yield. *)
Theorem get_inequalities_correct :
  (∀ name opsymbol value,
     _get_inequalities (FilterNode name opsymbol value) =
     if decide (opsymbol = "=") then []
     else [mkFilterDict name opsymbol value]) ∧
  (∀ nodes,
     _get_inequalities (ConjunctionNode nodes) =
     concat (_get_inequalities <$> nodes)) ∧
  (∀ nodes,
     _get_inequalities (DisjunctionNode nodes) =
     concat (_get_inequalities <$> nodes)) ∧
  (∀ n, _get_inequalities n = extractInequalities n).
Proof.
  split_and!.
  - intros name opsymbol value. cbn.
    destruct (String.eqb_spec opsymbol "="); by case_decide.
  - intros nodes. cbn. induction nodes as [|m ms IH]; [done|].
    cbn. by rewrite IH.
  - intros nodes. cbn. induction nodes as [|m ms IH]; [done|].
    cbn. by rewrite IH.
  - apply get_inequalities_leaves.
Qed.

(** ** The decomposer *)

Section Decomposer.
Context `{Host}.
Implicit Types (self : MIP) (f inq : FilterDict) (n : Node) (o : PyObj).

Lemma MIP_eta self :
  {| query := query self;
     first_inequality := first_inequality self;
     post_inq_filters := post_inq_filters self |} = self.
Proof. by destruct self. Qed.

Lemma filter_unfold (args : list PyObj) self :
  filter args self = filter_loop args self.
Proof. by destruct args. Qed.

(** Once a first inequality is there, the loop of [_push_filter] leaves it
    alone and only looks for a name that differs. *)
Lemma scan_inequalities_Some f (inequalities : list FilterDict) :
  scan_inequalities (Some f) inequalities =
  (Some f,
   existsb (λ inq, negb (String.eqb (fd_name f) (fd_name inq))) inequalities).
Proof.
  induction inequalities as [|inq rest IH]; [done|].
  cbn. destruct (negb (String.eqb (fd_name f) (fd_name inq))); [done|].
  by rewrite IH.
Qed.

Lemma scan_inequalities_nil (first : option FilterDict) :
  scan_inequalities first [] = (first, false).
Proof. done. Qed.

Lemma push_filter_Some self f n :
  first_inequality self = Some f →
  _push_filter n self =
  (conflicts f n,
   {| query := query self;
      first_inequality := Some f;
      post_inq_filters :=
        if conflicts f n then post_inq_filters self ++ [n]
        else post_inq_filters self |}).
Proof.
  intros Hf. unfold _push_filter, conflicts.
  by rewrite Hf, scan_inequalities_Some.
Qed.

Lemma push_filter_first self f n :
  first_inequality self = Some f →
  first_inequality (_push_filter n self).2 = Some f.
Proof. intros Hf. by rewrite (push_filter_Some _ _ _ Hf). Qed.

Lemma filter_loop_first (args : list PyObj) self f :
  first_inequality self = Some f →
  first_inequality (filter_loop args self).2 = Some f.
Proof.
  revert self. induction args as [|o rest IH]; intros self Hf; [done|].
  destruct o as [n|q|m|v]; try done.
  cbn [filter_loop]. rewrite (push_filter_Some _ _ _ Hf).
  destruct (conflicts f n); by apply IH.
Qed.

Lemma conflicts_leaf f n inq :
  inq ∈ leaves n → is_inequality inq = true → fd_name inq ≠ fd_name f →
  conflicts f n = true.
Proof.
  intros Hin Hinq Hne. apply existsb_exists. exists inq. split.
  - rewrite get_inequalities_leaves. apply filter_In. split; [|done].
    by apply list_elem_of_In.
  - apply negb_true_iff. by apply String.eqb_neq.
Qed.

Lemma only_equalities_no_inequality n :
  only_equalities n = true → _get_inequalities n = [].
Proof.
  induction n as [| |name opsymbol value|nodes IH|nodes IH] using Node_tree_ind;
    intros Hn; try done.
  - cbn in *. by rewrite Hn.
  - cbn in *. induction IH as [|m ms Hm _ IHms]; [done|].
    cbn in Hn. apply andb_true_iff in Hn as [Hm' Hms'].
    cbn. by rewrite Hm, IHms.
  - cbn in *. induction IH as [|m ms Hm _ IHms]; [done|].
    cbn in Hn. apply andb_true_iff in Hn as [Hm' Hms'].
    cbn. by rewrite Hm, IHms.
Qed.

(** The post filters after a call of [filter] on nodes, once the first
    inequality is there: the nodes that conflict with it are appended in
    the order of the arguments. *)
Lemma filter_loop_nodes (ns : list Node) self f :
  first_inequality self = Some f →
  (filter_loop (ONode <$> ns) self).1 = Ok () ∧
  post_inq_filters (filter_loop (ONode <$> ns) self).2 =
    post_inq_filters self ++ List.filter (conflicts f) ns.
Proof.
  revert self. induction ns as [|n ns IH]; intros self Hf.
  - cbn. by rewrite app_nil_r.
  - cbn [fmap list_fmap filter_loop List.filter].
    rewrite (push_filter_Some _ _ _ Hf).
    destruct (conflicts f n).
    + edestruct IH as [-> ->]; [done|]. cbn. by rewrite <- app_assoc.
    + edestruct IH as [-> ->]; done.
Qed.

(** C1. Once [first_inequality] is set, no call of [filter], whatever its
    arguments and whether it returns or raises, reassigns it: the property
    chosen for the backend stays the same through the whole session. *)
Theorem first_inequality_never_reassigned
    (calls : list (list PyObj)) self f :
  first_inequality self = Some f →
  first_inequality (filter_calls calls self) = Some f ∧
  chosen_property (filter_calls calls self) = Some (fd_name f).
Proof.
  intros Hf.
  assert (first_inequality (filter_calls calls self) = Some f) as Hkeep.
  { revert self Hf. induction calls as [|args calls IH]; intros self Hf; [done|].
    cbn. apply IH. rewrite filter_unfold. by apply filter_loop_first. }
  split; [done|]. unfold chosen_property. by rewrite Hkeep.
Qed.

(** C2. A tree whose comparisons are all equalities is never added to the
    post filters: [_push_filter] answers [False] and changes nothing, and
    [filter] hands the node to the underlying query, whatever the first
    inequality is at that time. *)
Theorem equalities_always_accepted self n :
  only_equalities n = true →
  _push_filter n self = (false, self) ∧
  filter [ONode n] self =
    (Ok (),
     {| query := query_filter (query self) n;
        first_inequality := first_inequality self;
        post_inq_filters := post_inq_filters self |}).
Proof.
  intros Hn.
  assert (_push_filter n self = (false, self)) as Hpush.
  { unfold _push_filter.
    rewrite (only_equalities_no_inequality _ Hn), scan_inequalities_nil.
    by rewrite MIP_eta. }
  split; [done|]. cbn. by rewrite Hpush.
Qed.

(** C3. With the first inequality on a property Q, a node one of whose
    comparisons is an inequality on another property is added to the post
    filters:
    [_push_filter] answers [True] and appends the whole node; and after a
    call of [filter] on nodes the post filters are the former ones followed
    by the conflicting arguments, in the order they were given. *)
Theorem conflicting_inequality_deferred self f :
  first_inequality self = Some f →
  (∀ n inq,
     inq ∈ leaves n → is_inequality inq = true → fd_name inq ≠ fd_name f →
     _push_filter n self =
       (true,
        {| query := query self;
           first_inequality := Some f;
           post_inq_filters := post_inq_filters self ++ [n] |}) ∧
     filter [ONode n] self =
       (Ok (),
        {| query := query self;
           first_inequality := Some f;
           post_inq_filters := post_inq_filters self ++ [n] |})) ∧
  (∀ ns : list Node,
     (filter (ONode <$> ns) self).1 = Ok () ∧
     post_inq_filters (filter (ONode <$> ns) self).2 =
       post_inq_filters self ++ List.filter (conflicts f) ns).
Proof.
  intros Hf. split.
  - intros n inq Hin Hinq Hne.
    assert (_push_filter n self =
       (true,
        {| query := query self;
           first_inequality := Some f;
           post_inq_filters := post_inq_filters self ++ [n] |})) as Hpush.
    { rewrite (push_filter_Some _ _ _ Hf).
      by rewrite (conflicts_leaf _ _ _ Hin Hinq Hne). }
    split; [done|]. cbn. by rewrite Hpush.
  - intros ns. rewrite filter_unfold. by apply filter_loop_nodes.
Qed.

Lemma push_filter_frame n self :
  query (_push_filter n self).2 = query self ∧
  post_inq_filters (_push_filter n self).2 =
    if (_push_filter n self).1 then post_inq_filters self ++ [n]
    else post_inq_filters self.
Proof.
  unfold _push_filter.
  by destruct (scan_inequalities (first_inequality self) (_get_inequalities n))
    as [first []].
Qed.

(** Where the nodes of a call go: some to the query, the others to the post
    filters, each group in the order of the arguments. *)
Lemma filter_loop_routes (ns : list Node) self :
  ∃ accepted deferred : list Node,
    (filter_loop (ONode <$> ns) self).1 = Ok () ∧
    query (filter_loop (ONode <$> ns) self).2 =
      foldl query_filter (query self) accepted ∧
    post_inq_filters (filter_loop (ONode <$> ns) self).2 =
      post_inq_filters self ++ deferred ∧
    ns ≡ₚ accepted ++ deferred ∧
    accepted `sublist_of` ns ∧
    deferred `sublist_of` ns.
Proof.
  revert self.
  induction ns as [|n ns IH]; intros self.
  - exists [], []. cbn. by rewrite app_nil_r.
  - cbn [fmap list_fmap filter_loop].
    destruct (push_filter_frame n self) as [Hquery Hpost].
    destruct (_push_filter n self) as [pushed self1]. cbn in Hquery, Hpost.
    destruct pushed.
    + destruct (IH self1) as (acc & def & Hok & Hq & Hp & Hperm & Hacc & Hdef).
      exists acc, (n :: def). split_and!.
      * done.
      * by rewrite Hq, Hquery.
      * by rewrite Hp, Hpost, <- app_assoc.
      * by rewrite <- Permutation_middle, <- Hperm.
      * by apply sublist_cons.
      * by apply sublist_skip.
    + match goal with
      | |- context [filter_loop _ ?s] =>
          destruct (IH s) as (acc & def & Hok & Hq & Hp & Hperm & Hacc & Hdef)
      end.
      cbn in Hq, Hp.
      exists (n :: acc), def. split_and!.
      * done.
      * by rewrite Hq, Hquery.
      * by rewrite Hp, Hpost.
      * cbn. by rewrite <- Hperm.
      * by apply sublist_skip.
      * by apply sublist_cons.
Qed.

Lemma filter_loop_not_node (ns : list Node) o (rest : list PyObj) self :
  is_node o = false →
  filter_loop ((ONode <$> ns) ++ o :: rest) self =
  (Raise TypeError, (filter_loop (ONode <$> ns) self).2).
Proof.
  intros Ho. revert self. induction ns as [|n ns IH]; intros self.
  - cbn. by destruct o.
  - cbn. destruct (_push_filter n self) as [[] self1]; apply IH.
Qed.

Lemma args_split (args : list PyObj) :
  forallb is_node args = false →
  ∃ ns o rest, args = (ONode <$> ns) ++ o :: rest ∧ is_node o = false.
Proof.
  induction args as [|o args IH]; [done|].
  cbn. destruct o as [n|q|m|v]; cbn.
  - intros Hargs. destruct (IH Hargs) as (ns & o & rest & -> & Ho).
    by exists (n :: ns), o, rest.
  - intros _. by exists [], (OQuery q), args.
  - intros _. by exists [], (OModel m), args.
  - intros _. by exists [], (OValue v), args.
Qed.

(** C9. [filter] raises [TypeError] as soon as one of its arguments is not
    a node, and [__init__] raises [TypeError] for an argument that is
    neither a model nor a query; both do so in the call itself. *)
Theorem not_a_node_raises_TypeError (args : list PyObj) self o :
  forallb is_node args = false →
  is_model_or_query o = false →
  (filter args self).1 = Raise TypeError ∧
  __init__ o = Raise TypeError.
Proof.
  intros Hargs Ho. split.
  - destruct (args_split _ Hargs) as (ns & o' & rest & -> & Ho').
    by rewrite filter_unfold, filter_loop_not_node.
  - by destruct o.
Qed.

(** C10. [filter] takes its arguments one at a time: when an argument is
    not a node, the call raises [TypeError] and the instance is left as the
    arguments before it made it.  Each of these has by then been handed to
    the query or appended to the post filters: the nodes before the refused
    argument are, up to order, those the query has received together with
    those the post filters have gained. *)
Theorem filter_not_atomic (ns : list Node) o (rest : list PyObj) self :
  is_node o = false →
  filter ((ONode <$> ns) ++ o :: rest) self =
    (Raise TypeError, (filter (ONode <$> ns) self).2) ∧
  ∃ accepted deferred : list Node,
    query (filter ((ONode <$> ns) ++ o :: rest) self).2 =
      foldl query_filter (query self) accepted ∧
    post_inq_filters (filter ((ONode <$> ns) ++ o :: rest) self).2 =
      post_inq_filters self ++ deferred ∧
    ns ≡ₚ accepted ++ deferred ∧
    accepted `sublist_of` ns ∧
    deferred `sublist_of` ns.
Proof.
  intros Ho. rewrite !filter_unfold, (filter_loop_not_node _ _ _ _ Ho).
  split; [done|].
  destruct (filter_loop_routes ns self)
    as (accepted & deferred & _ & Hq & Hp & Hperm & Hacc & Hdef).
  by exists accepted, deferred.
Qed.

End Decomposer.

(** ** The evaluator compiler *)

Section Compiler.
Context `{Host}.
Implicit Types (self : MIP) (n : Node) (x : Entity) (p : Evaluator).

Lemma op_of_symbol_recognised (symbol : string) :
  symbol ∉ recognised_symbols ↔ op_of_symbol symbol = None.
Proof.
  split.
  - intros Hn. unfold op_of_symbol.
    repeat match goal with
           | |- context [String.eqb symbol ?s] =>
               destruct (String.eqb_spec symbol s) as [->|?];
               [exfalso; apply Hn; unfold recognised_symbols; set_solver|]
           end.
    done.
  - intros Hop Hin. unfold recognised_symbols in Hin.
    repeat (apply elem_of_cons in Hin as [->|Hin]; [done|]).
    by apply elem_of_nil in Hin.
Qed.

(** The chain of tests of [make_closure], read as a table. *)
Lemma make_closure_op (f_d : FilterDict) :
  make_closure f_d =
  match op_of_symbol (fd_symbol f_d) with
  | Some op => Ok (compare_attr op f_d)
  | None => Raise NotImplementedError
  end.
Proof.
  unfold make_closure, op_of_symbol.
  by repeat (destruct (String.eqb (fd_symbol f_d) _); [done|]).
Qed.

Lemma convert_value_symbol (prop_type : string) (f_dict : FilterDict) :
  fd_symbol (convert_value prop_type f_dict) = fd_symbol f_dict.
Proof.
  unfold convert_value.
  destruct (String.eqb prop_type "TimeProperty");
    [by destruct (fd_value f_dict)|].
  destruct (String.eqb prop_type "DateProperty"); [|done].
  by destruct (fd_value f_dict).
Qed.

Lemma convert_value_not_datetime (prop_type : string) (f_dict : FilterDict) :
  is_datetime (fd_value f_dict) = false →
  convert_value prop_type f_dict = f_dict.
Proof.
  intros Hv. unfold convert_value.
  destruct (String.eqb prop_type "TimeProperty");
    [by destruct (fd_value f_dict)|].
  destruct (String.eqb prop_type "DateProperty"); [|done].
  by destruct (fd_value f_dict).
Qed.

Lemma make_evaluator_declared self (name opsymbol c : string) (value : Value) :
  property_class (query_kind (query self)) name = Some c →
  _make_evaluator self name opsymbol value =
  make_closure (convert_value c (_node_to_dict name opsymbol value)).
Proof. intros Hc. unfold _make_evaluator. cbn. by rewrite Hc. Qed.

Lemma collect_app {A B : Type} (f : A → Exc (list B)) (l1 l2 : list A) :
  collect f (l1 ++ l2) =
  match collect f l1 with
  | Ok bs1 =>
      match collect f l2 with
      | Ok bs2 => Ok (bs1 ++ bs2)
      | Raise e => Raise e
      end
  | Raise e => Raise e
  end.
Proof.
  induction l1 as [|a l1 IH]; cbn.
  - by destruct (collect f l2).
  - destruct (f a) as [bs|e]; [|done]. rewrite IH.
    destruct (collect f l1) as [bs1|e]; [|done].
    destruct (collect f l2) as [bs2|e]; [|done].
    by rewrite app_assoc.
Qed.

(** The two evaluators [_check_node] appends for a conjunction and for a
    disjunction are the ones [_make_and_evaluator] and [_make_or_evaluator]
    return. *)
Lemma check_subnode_conjunction self (nodes : list Node) :
  check_subnode self (ConjunctionNode nodes) =
  (e ← _make_and_evaluator self nodes; Ok [e]).
Proof.
  cbn. unfold _make_and_evaluator, _check_node.
  by destruct (collect (check_subnode self) nodes).
Qed.

Lemma check_subnode_disjunction self (nodes : list Node) :
  check_subnode self (DisjunctionNode nodes) =
  (e ← _make_or_evaluator self nodes; Ok [e]).
Proof.
  cbn. unfold _make_or_evaluator, _check_node.
  by destruct (collect (check_subnode self) nodes).
Qed.

(** C5, as the code has it. A comparison whose symbol is none of the six,
    on a property the schema of the kind knows, fails to compile with
    [NotImplementedError].  Handing the
    node to [filter] raises nothing; the error comes out of [__iter__],
    before any result is looked at, when the node is among the post
    filters and the ones before it compile. *)
Theorem unsupported_operator_raises_on_iteration
    self (name opsymbol c : string) (value : Value) :
  opsymbol ∉ recognised_symbols →
  property_class (query_kind (query self)) name = Some c →
  _make_evaluator self name opsymbol value = Raise NotImplementedError ∧
  (∀ s : MIP, (filter [ONode (FilterNode name opsymbol value)] s).1 = Ok ()) ∧
  (∀ (before after : list Node) (evs : list Evaluator),
     post_inq_filters self = before ++ FilterNode name opsymbol value :: after →
     _check_node self before = Ok evs →
     __iter__ self = ([], Some NotImplementedError)).
Proof.
  intros Hsym Hc.
  assert (_make_evaluator self name opsymbol value = Raise NotImplementedError)
    as Hraise.
  { rewrite (make_evaluator_declared _ _ _ _ _ Hc), make_closure_op.
    rewrite convert_value_symbol. cbn.
    apply op_of_symbol_recognised in Hsym. by rewrite Hsym. }
  split_and!; [done| |].
  - intros s. cbn. by destruct (_push_filter _ s) as [[] s1].
  - intros before after evs Hpost Hbefore.
    unfold __iter__, _make_and_evaluator, _check_node in *.
    rewrite Hpost, collect_app, Hbefore. cbn. by rewrite Hraise.
Qed.

(** C8. For a property of class [TimeProperty] a value that is a
    [datetime] is compared as its time of day, for one of class
    [DateProperty] as its date; a value that is no [datetime] is compared
    as it is. *)
Theorem temporal_value_converted_back
    self (name opsymbol c : string) (value : Value) (op : CmpOp) :
  property_class (query_kind (query self)) name = Some c →
  op_of_symbol opsymbol = Some op →
  (∀ d t, c = "TimeProperty" → value = VDatetime d t →
     _make_evaluator self name opsymbol value =
     Ok (compare_attr op (mkFilterDict name opsymbol (VTime t)))) ∧
  (∀ d t, c = "DateProperty" → value = VDatetime d t →
     _make_evaluator self name opsymbol value =
     Ok (compare_attr op (mkFilterDict name opsymbol (VDate d)))) ∧
  (is_datetime value = false →
     _make_evaluator self name opsymbol value =
     Ok (compare_attr op (mkFilterDict name opsymbol value))).
Proof.
  intros Hc Hop. rewrite (make_evaluator_declared _ _ _ _ _ Hc).
  split_and!.
  - intros d t -> ->. rewrite make_closure_op. cbn. by rewrite Hop.
  - intros d t -> ->. rewrite make_closure_op. cbn. by rewrite Hop.
  - intros Hv. rewrite convert_value_not_datetime by done.
    rewrite make_closure_op. cbn. by rewrite Hop.
Qed.

Lemma check_node_singleton self n :
  _check_node self [n] = check_subnode self n.
Proof.
  unfold _check_node. cbn.
  destruct (check_subnode self n) as [evs|e]; [|done]. by rewrite app_nil_r.
Qed.

Lemma and_tree_subnodes self x (nodes : list Node) :
  Forall (λ n, and_tree n = true → conjunction_of_leaves self x n) nodes →
  forallb and_tree nodes = true →
  ∀ bs : list bool,
    Forall2 (λ c b, leaf_outcome self x c = Ok b) (flat_map leaves nodes) bs →
    ∃ evs, collect (check_subnode self) nodes = Ok evs ∧
           and_evaluators evs x = Ok (forallb id bs).
Proof.
  induction 1 as [|m ms Hm _ IH]; intros Hall bs Hbs.
  - cbn in Hbs. apply Forall2_nil_inv_l in Hbs as ->. by exists [].
  - cbn in Hall. apply andb_true_iff in Hall as [Hm' Hms'].
    cbn in Hbs. apply Forall2_app_inv_l in Hbs as (bs1 & bs2 & H1 & H2 & ->).
    destruct (Hm Hm' bs1 H1) as (p & Hp & Hpx).
    destruct (IH Hms' bs2 H2) as (evs & Hevs & Hevsx).
    exists (p :: evs). split.
    + cbn. by rewrite Hp, Hevs.
    + cbn. rewrite Hpx. cbn. rewrite forallb_app.
      destruct (forallb id bs1); cbn; [done|by rewrite ?Hevsx].
Qed.

Lemma and_tree_conjunction self x n :
  and_tree n = true → conjunction_of_leaves self x n.
Proof.
  induction n as [| |name opsymbol value|nodes IH|nodes IH] using Node_tree_ind;
    intros Hn; try done.
  - intros bs Hbs. cbn in Hbs.
    apply Forall2_cons_inv_l in Hbs as (b & bs' & Hb & Hnil & ->).
    apply Forall2_nil_inv_l in Hnil as ->.
    unfold leaf_outcome in Hb. cbn in Hb.
    destruct (_make_evaluator self name opsymbol value) as [p|e] eqn:Hp;
      [|done].
    exists p. cbn. rewrite Hp. split; [done|].
    cbn in Hb. rewrite Hb. by rewrite andb_true_r.
  - intros bs Hbs. cbn in Hn, Hbs.
    destruct (and_tree_subnodes self x nodes IH Hn bs Hbs) as (evs & Hevs & Hx).
    exists (and_evaluators evs). cbn. by rewrite Hevs.
Qed.

(** C6, as the code has it. For a tree of conjunctions over comparisons and
    a result on which
    each comparison, compiled and applied on its own, returns a truth
    value, the compiled evaluator returns the conjunction of these values:
    stopping at the first [False] does not change the answer.  The
    evaluator of no sub-node at all returns [True]. *)
Theorem and_evaluator_is_conjunction self n x (bs : list bool) :
  and_tree n = true →
  Forall2 (λ c b, leaf_outcome self x c = Ok b) (leaves n) bs →
  (∃ p, _check_node self [n] = Ok [p] ∧ p x = Ok (forallb id bs)) ∧
  (∃ p0, _make_and_evaluator self [] = Ok p0 ∧ ∀ y, p0 y = Ok true).
Proof.
  intros Hn Hbs. split.
  - destruct (and_tree_conjunction self x n Hn bs Hbs) as (p & Hp & Hpx).
    exists p. by rewrite check_node_singleton, Hp.
  - by exists (and_evaluators []).
Qed.

End Compiler.

(** ** The streaming filter *)

Section Streaming.
Context `{Host}.
Implicit Types (self : MIP) (x r : Entity) (p : Evaluator).

Lemma iter_loop_survivable p (results : list Entity) :
  Forall (survivable p) results →
  iter_loop p results = (List.filter (passes p) results, None).
Proof.
  induction 1 as [|r rest Hr _ IH]; [done|].
  cbn. unfold passes. destruct (p r) as [[]|e] eqn:Hpr.
  - by rewrite IH.
  - done.
  - by rewrite (Hr e Hpr).
Qed.

Lemma iter_loop_propagates p (before after : list Entity) r (e : Exn) :
  Forall (survivable p) before →
  p r = Raise e → e ≠ TypeError →
  iter_loop p (before ++ r :: after) = (List.filter (passes p) before, Some e).
Proof.
  intros Hbefore Hr He. induction Hbefore as [|r' rest Hr' _ IH].
  - cbn. rewrite Hr. by destruct e.
  - cbn. unfold passes. destruct (p r') as [[]|e'] eqn:Hpr.
    + by rewrite IH.
    + done.
    + by rewrite (Hr' e' Hpr).
Qed.

Lemma iter_loop_yielded p (results : list Entity) r :
  r ∈ (iter_loop p results).1 → p r = Ok true.
Proof.
  induction results as [|r' rest IH]; cbn.
  - by intros ?%elem_of_nil.
  - destruct (p r') as [[]|e] eqn:Hpr.
    + destruct (iter_loop p rest) as [yielded ended]. cbn in *.
      intros [->|?]%elem_of_cons; [done|by apply IH].
    + done.
    + destruct e; first done; cbn; by intros ?%elem_of_nil.
Qed.

(** C4, as the code has it. With the post filters compiled to [p]: a
    result on which [p] raises [TypeError] is left out and the iteration
    goes on, so that where nothing but [TypeError] is raised the results
    yielded are exactly those on which [p] returns [True]; an exception
    of another class ends the iteration and reaches the caller, after the
    results that passed before it; and nothing is yielded on which [p]
    does not return [True]. *)
Theorem type_error_skips_the_result self p :
  _make_and_evaluator self (post_inq_filters self) = Ok p →
  (Forall (survivable p) (query_results (query self)) →
     __iter__ self =
     (List.filter (passes p) (query_results (query self)), None)) ∧
  (∀ (before after : list Entity) r (e : Exn),
     query_results (query self) = before ++ r :: after →
     Forall (survivable p) before →
     p r = Raise e → e ≠ TypeError →
     __iter__ self = (List.filter (passes p) before, Some e)) ∧
  (∀ r, r ∈ (__iter__ self).1 → p r = Ok true).
Proof.
  intros Hp. unfold __iter__. rewrite Hp. split_and!.
  - apply iter_loop_survivable.
  - intros before after r e -> Hbefore Hr He.
    by apply iter_loop_propagates.
  - apply iter_loop_yielded.
Qed.

End Streaming.

(** ** Further properties of the decomposer *)

Section DecomposerFurther.
Context `{Host}.
Implicit Types (self : MIP) (f inq c : FilterDict) (n : Node) (o : PyObj).

Lemma conflicts_false f n :
  conflicts f n = false ↔
  ∀ c, c ∈ leaves n → is_inequality c = true → fd_name c = fd_name f.
Proof.
  unfold conflicts. rewrite get_inequalities_leaves. unfold extractInequalities.
  induction (leaves n) as [|c cs IH]; cbn.
  - split; [|done]. by intros _ c ?%elem_of_nil.
  - destruct (is_inequality c) eqn:Hc; cbn.
    + rewrite orb_false_iff, IH, negb_false_iff, String.eqb_eq. split.
      * intros [Hf Hcs] c' [->|Hin]%elem_of_cons Hc'; [done|by apply Hcs].
      * intros Hall. split.
        -- symmetry. apply Hall; [apply list_elem_of_here|done].
        -- intros c' Hin Hc'. apply Hall; [by apply list_elem_of_further|done].
    + rewrite IH. split.
      * intros Hcs c' [->|Hin]%elem_of_cons Hc'; [congruence|by apply Hcs].
      * intros Hall c' Hin Hc'. apply Hall; [by apply list_elem_of_further|done].
Qed.

Lemma conflicts_own_first inq (rest : list FilterDict) n :
  _get_inequalities n = inq :: rest →
  conflicts inq n =
  existsb (λ c, negb (String.eqb (fd_name inq) (fd_name c))) rest.
Proof.
  intros Hn. unfold conflicts. rewrite Hn. cbn.
  by rewrite String.eqb_refl.
Qed.

Lemma push_filter_None self n inq (rest : list FilterDict) :
  first_inequality self = None →
  _get_inequalities n = inq :: rest →
  _push_filter n self =
    (conflicts inq n,
     {| query := query self;
        first_inequality := Some inq;
        post_inq_filters :=
          if conflicts inq n then post_inq_filters self ++ [n]
          else post_inq_filters self |}).
Proof.
  intros Hnone Hn. unfold _push_filter. rewrite Hnone, Hn. cbn.
  rewrite scan_inequalities_Some.
  by rewrite (conflicts_own_first _ _ _ Hn).
Qed.

(** X1. On a session without a first inequality, a node that holds
    inequalities makes the first of them, from left to right, the first
    inequality of the session -- also when the node itself is kept as a post
    filter, which happens exactly when a later inequality of the node is on
    another property. *)
Theorem push_filter_sets_first_inequality self n inq (rest : list FilterDict) :
  first_inequality self = None →
  extractInequalities n = inq :: rest →
  _push_filter n self =
    (conflicts inq n,
     {| query := query self;
        first_inequality := Some inq;
        post_inq_filters :=
          if conflicts inq n then post_inq_filters self ++ [n]
          else post_inq_filters self |}).
Proof.
  intros Hnone Hn. rewrite <- get_inequalities_leaves in Hn.
  by apply (push_filter_None _ _ _ rest).
Qed.

(** X2. With the first inequality on a property Q, [_push_filter] answers
    [False] -- the node goes to the query -- exactly when every inequality
    that a [FilterNode] of the node holds is on Q.  The comparison of a
    [ParameterNode] is not looked at: such a node is answered [False] with
    the session unchanged, whatever its property and operator. *)
Theorem accepted_iff_inequalities_on_chosen self f n :
  first_inequality self = Some f →
  ((_push_filter n self).1 = false ↔
   ∀ c, c ∈ leaves n → is_inequality c = true → fd_name c = fd_name f) ∧
  (∀ (name opsymbol : string) (key : Value),
     _push_filter (ParameterNode name opsymbol key) self = (false, self)).
Proof.
  intros Hf. split.
  - rewrite (push_filter_Some _ _ _ Hf). cbn. apply conflicts_false.
  - intros name opsymbol key. unfold _push_filter. cbn. by rewrite MIP_eta.
Qed.

(** X3. Whatever the session, when [_push_filter] answers [False] every
    inequality that a [FilterNode] of the node holds is on the property of
    the first inequality the session has after the call: no [FilterNode]
    comparison is handed to the query with an inequality on another
    property. *)
Theorem accepted_node_inequalities_on_chosen self n c :
  (_push_filter n self).1 = false →
  c ∈ leaves n → is_inequality c = true →
  chosen_property (_push_filter n self).2 = Some (fd_name c).
Proof.
  intros Hpush Hin Hc. unfold chosen_property.
  destruct (first_inequality self) as [f|] eqn:Hf.
  - rewrite (push_filter_Some _ _ _ Hf) in *. cbn in *.
    f_equal. symmetry. by apply (conflicts_false f n).
  - assert (c ∈ extractInequalities n) as Hex.
    { apply list_elem_of_In, filter_In. split; [|done]. by apply list_elem_of_In. }
    rewrite <- get_inequalities_leaves in Hex.
    destruct (_get_inequalities n) as [|inq rest] eqn:Hn;
      [by apply elem_of_nil in Hex|].
    rewrite (push_filter_None _ _ _ _ Hf Hn) in *.
    cbn in *. f_equal. symmetry. by apply (conflicts_false inq n).
Qed.

Lemma filter_loop_app (args1 args2 : list PyObj) self :
  filter_loop (args1 ++ args2) self =
  match (filter_loop args1 self).1 with
  | Ok _ => filter_loop args2 (filter_loop args1 self).2
  | Raise e => filter_loop args1 self
  end.
Proof.
  revert self. induction args1 as [|o args1 IH]; intros self; [done|].
  destruct o as [n|q|m|v]; try done.
  cbn [app filter_loop]. destruct (_push_filter n self) as [[] self1]; apply IH.
Qed.

(** X4. One call of [filter] with several arguments does what chained
    calls do: the arguments after a prefix are handled from the session the
    prefix leaves, unless the prefix raised, in which case nothing more is
    done. *)
Theorem filter_arguments_chain (args1 args2 : list PyObj) self :
  filter (args1 ++ args2) self =
  match (filter args1 self).1 with
  | Ok _ => filter args2 (filter args1 self).2
  | Raise e => filter args1 self
  end.
Proof. rewrite !filter_unfold. apply filter_loop_app. Qed.

Lemma filter_loop_prefix (args : list PyObj) self :
  post_inq_filters self `prefix_of` post_inq_filters (filter_loop args self).2.
Proof.
  revert self. induction args as [|o args IH]; intros self; [done|].
  destruct o as [n|q|m|v]; try done.
  cbn [filter_loop].
  destruct (push_filter_frame n self) as [_ Hpost].
  destruct (_push_filter n self) as [pushed self1]. cbn in Hpost.
  destruct pushed.
  - etrans; [|apply IH]. rewrite Hpost. by apply prefix_app_r.
  - etrans; [|apply IH]. cbn. by rewrite Hpost.
Qed.

(** X5. The post filters only grow at the end: through any calls of
    [filter], returning or raising, the list a session had stays the
    beginning of the list it has afterwards. *)
Theorem post_filters_only_grow (calls : list (list PyObj)) self :
  post_inq_filters self `prefix_of` post_inq_filters (filter_calls calls self).
Proof.
  revert self. induction calls as [|args calls IH]; intros self; [done|].
  cbn. etrans; [|apply IH]. rewrite filter_unfold. apply filter_loop_prefix.
Qed.

(** X6. A call of [filter] on nodes sends each node to one place and one
    only: the nodes are, up to order, those handed to the query together
    with those appended to the post filters, and each of the two groups
    keeps the order of the arguments. *)
Theorem filter_routes_each_node_once (ns : list Node) self :
  ∃ accepted deferred : list Node,
    (filter (ONode <$> ns) self).1 = Ok () ∧
    query (filter (ONode <$> ns) self).2 =
      foldl query_filter (query self) accepted ∧
    post_inq_filters (filter (ONode <$> ns) self).2 =
      post_inq_filters self ++ deferred ∧
    ns ≡ₚ accepted ++ deferred ∧
    accepted `sublist_of` ns ∧
    deferred `sublist_of` ns.
Proof. rewrite filter_unfold. apply filter_loop_routes. Qed.

(** X7. A session built on a query whose filters hold an inequality starts
    with that inequality -- the first from left to right -- as its first
    inequality and without post filters; a node then given to [filter] with
    an inequality on another property becomes its first post filter, and the
    query is not touched. *)
Theorem init_takes_first_inequality_of_query
    (q : Query) (base : Node) inq (rest : list FilterDict) :
  query_filters q = Some base →
  extractInequalities base = inq :: rest →
  __init__ (OQuery q) =
    Ok {| query := q; first_inequality := Some inq; post_inq_filters := [] |} ∧
  ∀ n c,
    c ∈ leaves n → is_inequality c = true → fd_name c ≠ fd_name inq →
    filter [ONode n]
      {| query := q; first_inequality := Some inq; post_inq_filters := [] |} =
    (Ok (),
     {| query := q; first_inequality := Some inq; post_inq_filters := [n] |}).
Proof.
  intros Hq Hbase. rewrite <- get_inequalities_leaves in Hbase. split.
  - cbn. unfold _get_first_inequality. by rewrite Hq, Hbase.
  - intros n c Hin Hc Hne. cbn [filter filter_loop].
    rewrite (push_filter_Some _ inq n) by done.
    by rewrite (conflicts_leaf _ _ _ Hin Hc Hne).
Qed.

End DecomposerFurther.

(** ** Further properties of the compiler and of the iteration *)

Section CompilerFurther.
Context `{Host}.
Implicit Types (self : MIP) (n : Node) (x : Entity) (p : Evaluator)
  (c : FilterDict).

Lemma collect_returned {A B : Type} (f : A → Exc (list B)) (l : list A) :
  returned (collect f l) = forallb (λ a, returned (f a)) l.
Proof.
  induction l as [|a l IH]; [done|].
  cbn. destruct (f a) as [bs|e]; [|done]. cbn. rewrite <- IH.
  by destruct (collect f l).
Qed.

Lemma collect_cons {A B : Type} (f : A → Exc (list B)) (a : A) (l : list A) :
  collect f (a :: l) =
  match f a with
  | Ok bs =>
      match collect f l with
      | Ok bs' => Ok (bs ++ bs')
      | Raise e => Raise e
      end
  | Raise e => Raise e
  end.
Proof. done. Qed.

Lemma forallb_flat_map {A B : Type} (g : B → bool) (h : A → list B) (l : list A) :
  forallb g (flat_map h l) = forallb (λ a, forallb g (h a)) l.
Proof.
  induction l as [|a l IH]; [done|]. cbn. by rewrite forallb_app, IH.
Qed.

Lemma check_subnode_returned self n :
  returned (check_subnode self n) = forallb (leaf_compiles self) (leaves n).
Proof.
  induction n as [| |name opsymbol value|nodes IH|nodes IH] using Node_tree_ind;
    try done.
  - cbn. unfold leaf_compiles. cbn.
    destruct (_make_evaluator self name opsymbol value); by cbn.
  - cbn [leaves]. rewrite forallb_flat_map.
    transitivity (returned (collect (check_subnode self) nodes)).
    { cbn. by destruct (collect (check_subnode self) nodes). }
    rewrite collect_returned.
    induction IH as [|m ms Hm _ IHms]; [done|]. cbn. by rewrite Hm, IHms.
  - cbn [leaves]. rewrite forallb_flat_map.
    transitivity (returned (collect (check_subnode self) nodes)).
    { cbn. by destruct (collect (check_subnode self) nodes). }
    rewrite collect_returned.
    induction IH as [|m ms Hm _ IHms]; [done|]. cbn. by rewrite Hm, IHms.
Qed.

Lemma check_node_returned self (nodes : list Node) :
  returned (_check_node self nodes) =
  forallb (leaf_compiles self) (flat_map leaves nodes).
Proof.
  unfold _check_node. rewrite collect_returned, forallb_flat_map.
  induction nodes as [|m ms IH]; [done|].
  cbn. by rewrite check_subnode_returned, IH.
Qed.

(** X8. The post filters are compiled as a whole before any result is
    looked at: the evaluator is built exactly when every comparison of
    every tree compiles, wherever it sits; when one does not, [__iter__]
    yields nothing and ends with an exception. *)
Theorem compiles_iff_every_comparison_compiles self (nodes : list Node) :
  returned (_make_and_evaluator self nodes) =
    forallb (leaf_compiles self) (flat_map leaves nodes) ∧
  (forallb (leaf_compiles self) (flat_map leaves (post_inq_filters self)) = false →
   ∃ e, __iter__ self = ([], Some e)).
Proof.
  split.
  - rewrite <- check_node_returned. unfold _make_and_evaluator.
    by destruct (_check_node self nodes).
  - rewrite <- check_node_returned. unfold __iter__, _make_and_evaluator.
    destruct (_check_node self (post_inq_filters self)) as [evs|e]; [done|].
    intros _. by exists e.
Qed.

(** X9. A comparison on a property the schema of the kind does not know
    fails to compile with [KeyError], whatever its operator; with such a
    node among the post filters, the ones before it compiling, [__iter__]
    yields nothing and raises [KeyError]. *)
Theorem undeclared_property_raises_KeyError
    self (name opsymbol : string) (value : Value) :
  property_class (query_kind (query self)) name = None →
  _make_evaluator self name opsymbol value = Raise KeyError ∧
  (∀ (before after : list Node) (evs : list Evaluator),
     post_inq_filters self = before ++ FilterNode name opsymbol value :: after →
     _check_node self before = Ok evs →
     __iter__ self = ([], Some KeyError)).
Proof.
  intros Hc.
  assert (_make_evaluator self name opsymbol value = Raise KeyError) as Hraise.
  { unfold _make_evaluator. cbn. by rewrite Hc. }
  split; [done|].
  intros before after evs Hpost Hbefore.
  unfold __iter__, _make_and_evaluator, _check_node in *.
  rewrite Hpost, collect_app, Hbefore. cbn. by rewrite Hraise.
Qed.

(** X10. [_check_node] has no branch for a [FalseNode] or a
    [ParameterNode]: the evaluators it returns are those of the list without
    these nodes, so that such a node changes nothing to the conjunction or
    disjunction it stands in. *)
Theorem check_node_skips_other_nodes self (nodes : list Node) :
  _check_node self nodes =
  _check_node self (List.filter (λ n, negb (is_ignored n)) nodes).
Proof.
  unfold _check_node. induction nodes as [|m ms IH]; [done|].
  rewrite collect_cons.
  destruct m; cbn [List.filter is_ignored negb];
    rewrite ?collect_cons, IH; try done.
  - cbn. by destruct (collect (check_subnode self) (List.filter _ ms)).
  - cbn. by destruct (collect (check_subnode self) (List.filter _ ms)).
Qed.

Lemma structure_subnodes self x (v : FilterDict → bool) (nodes : list Node) :
  Forall (follows_structure self x v) nodes →
  forallb comparison_tree nodes = true →
  (∀ c, c ∈ flat_map leaves nodes → leaf_outcome self x c = Ok (v c)) →
  ∃ evs, collect (check_subnode self) nodes = Ok evs ∧
         and_evaluators evs x = Ok (forallb (tree_value v) nodes) ∧
         or_evaluators evs x = Ok (existsb (tree_value v) nodes).
Proof.
  induction 1 as [|m ms Hm _ IH]; intros Hall Hleaf.
  - by exists [].
  - cbn in Hall. apply andb_true_iff in Hall as [Hm' Hms'].
    destruct (Hm Hm') as (p & Hp & Hpx).
    { intros c Hc. apply Hleaf. cbn. apply elem_of_app. by left. }
    destruct (IH Hms') as (evs & Hevs & Hand & Hor).
    { intros c Hc. apply Hleaf. cbn. apply elem_of_app. by right. }
    exists (p :: evs). split_and!.
    + cbn. by rewrite Hp, Hevs.
    + cbn. rewrite Hpx. cbn. by destruct (tree_value v m).
    + cbn. rewrite Hpx. cbn. by destruct (tree_value v m).
Qed.

Lemma structure_tree self x (v : FilterDict → bool) n :
  follows_structure self x v n.
Proof.
  induction n as [| |name opsymbol value|nodes IH|nodes IH] using Node_tree_ind;
    intros Hn Hleaf; try done.
  - specialize (Hleaf (mkFilterDict name opsymbol value)).
    unfold leaf_outcome in Hleaf. cbn in Hleaf.
    destruct (_make_evaluator self name opsymbol value) as [p|e] eqn:Hp.
    + exists p. cbn. rewrite Hp. split; [done|].
      apply Hleaf. apply list_elem_of_here.
    + exfalso. by specialize (Hleaf (list_elem_of_here _ _)).
  - cbn in Hn. destruct (structure_subnodes self x v nodes IH Hn Hleaf)
      as (evs & Hevs & Hand & _).
    exists (and_evaluators evs). cbn. by rewrite Hevs.
  - cbn in Hn. destruct (structure_subnodes self x v nodes IH Hn Hleaf)
      as (evs & Hevs & _ & Hor).
    exists (or_evaluators evs). cbn. by rewrite Hevs.
Qed.

(** X11. For a tree of conjunctions and disjunctions over comparisons and
    a result on which each comparison, compiled and applied on its own,
    returns a truth value, the compiled evaluator returns the truth value of
    the tree: all sub-nodes for a conjunction, one at least for a
    disjunction, at every depth. *)
Theorem evaluator_follows_tree self n x (v : FilterDict → bool) :
  comparison_tree n = true →
  (∀ c, c ∈ leaves n → leaf_outcome self x c = Ok (v c)) →
  ∃ p, _check_node self [n] = Ok [p] ∧ p x = Ok (tree_value v n).
Proof.
  intros Hn Hleaf.
  destruct (structure_tree self x v n Hn Hleaf) as (p & Hp & Hpx).
  exists p. by rewrite check_node_singleton, Hp.
Qed.



Lemma iter_loop_sublist p (results : list Entity) :
  (iter_loop p results).1 `sublist_of` results.
Proof.
  induction results as [|r rest IH]; [done|].
  cbn. destruct (p r) as [[]|e].
  - destruct (iter_loop p rest) as [yielded ended]. by apply sublist_skip.
  - by apply sublist_cons.
  - destruct e; first (by apply sublist_cons); apply sublist_nil_l.
Qed.

(** X13. Whatever the post filters and however the iteration ends, the
    results handed back are results of the underlying query, each at most as
    often as the query returns it and in the order of the query. *)
Theorem iteration_yields_sublist self :
  (__iter__ self).1 `sublist_of` query_results (query self).
Proof.
  unfold __iter__.
  destruct (_make_and_evaluator self (post_inq_filters self)) as [p|e].
  - apply iter_loop_sublist.
  - apply sublist_nil_l.
Qed.

(** X14. A session without post filters hands back every result of the
    underlying query. *)
Theorem no_post_filters_yields_everything self :
  post_inq_filters self = [] →
  __iter__ self = (query_results (query self), None).
Proof.
  intros Hpost. unfold __iter__. rewrite Hpost. cbn.
  induction (query_results (query self)) as [|r rest IH]; [done|].
  cbn. by rewrite IH.
Qed.

(** X15. The evaluator of a conjunction returns what its first sub-evaluator
    that does not return [True] gives, be it [False] or an exception; the
    sub-evaluators after it are not called. *)
Theorem and_stops_at_first_not_true (before after : list Evaluator) p x :
  Forall (λ q : Evaluator, q x = Ok true) before →
  p x ≠ Ok true →
  and_evaluators (before ++ p :: after) x = p x.
Proof.
  intros Hbefore Hp. induction Hbefore as [|q qs Hq _ IH].
  - cbn. by destruct (p x) as [[]|e].
  - cbn. by rewrite Hq.
Qed.

(** X16. The evaluator of a disjunction returns what its first sub-evaluator
    that does not return [False] gives, be it [True] or an exception; the
    sub-evaluators after it are not called. *)
Theorem or_stops_at_first_not_false (before after : list Evaluator) p x :
  Forall (λ q : Evaluator, q x = Ok false) before →
  p x ≠ Ok false →
  or_evaluators (before ++ p :: after) x = p x.
Proof.
  intros Hbefore Hp. induction Hbefore as [|q qs Hq _ IH].
  - cbn. by destruct (p x) as [[]|e].
  - cbn. by rewrite Hq.
Qed.

End CompilerFurther.


Import ListHost Scenario FurtherScenario.

(** ** The session of the specification, run

    The base query filters on the department; [salary > 50000] goes to the
    query and fixes the first inequality; [age < 30] becomes a post filter;
    of the three candidates the second is dropped. *)
Example employee_scenario :
  __init__ (OQuery (employees candidates)) = Ok session0 ∧
  first_inequality session0 = None ∧
  session2 =
    {| query := {| q_kind := "Employee";
                   q_filters := [department_is_eng; salary_above];
                   q_rows := candidates |};
       first_inequality := Some salary_dict;
       post_inq_filters := [age_below] |} ∧
  __iter__ session2 =
    ([employee eng (VInt 60000) (VInt 25); employee eng (VInt 55000) (VInt 29)],
     None).
Proof. split_and!; vm_compute; reflexivity. Qed.

(** ** The statements at concrete sessions *)

Lemma first_inequality_never_reassigned_witness :
  first_inequality session1 = Some salary_dict ∧
  first_inequality
    (filter_calls [[ONode age_below]; [not_a_filter]; [ONode eng_or_young]]
                  session1) = Some salary_dict ∧
  chosen_property
    (filter_calls [[ONode age_below]; [not_a_filter]; [ONode eng_or_young]]
                  session1) = Some "salary".
Proof.
  split; [reflexivity|].
  apply (@first_inequality_never_reassigned list_host
           [[ONode age_below]; [not_a_filter]; [ONode eng_or_young]]
           session1 salary_dict).
  reflexivity.
Defined.

Lemma equalities_always_accepted_witness :
  only_equalities
    (ConjunctionNode
       [department_is_eng;
        DisjunctionNode [FilterNode "age" "=" (VInt 30);
                         FilterNode "salary" "=" (VInt 1)]]) = true ∧
  _push_filter
    (ConjunctionNode
       [department_is_eng;
        DisjunctionNode [FilterNode "age" "=" (VInt 30);
                         FilterNode "salary" "=" (VInt 1)]]) session2 =
    (false, session2).
Proof.
  split; [reflexivity|].
  apply (@equalities_always_accepted list_host session2); reflexivity.
Defined.

Lemma conflicting_inequality_deferred_witness :
  first_inequality session1 = Some salary_dict ∧
  _push_filter age_below session1 =
    (true,
     {| query := query session1;
        first_inequality := Some salary_dict;
        post_inq_filters := post_inq_filters session1 ++ [age_below] |}) ∧
  post_inq_filters
    (filter (ONode <$> [age_below; department_is_eng; eng_or_young]) session1).2 =
    [age_below; eng_or_young].
Proof.
  split; [reflexivity|].
  destruct (@conflicting_inequality_deferred list_host session1 salary_dict
              eq_refl) as [Hone Hall].
  split.
  - apply (Hone age_below (mkFilterDict "age" "<" (VInt 30))).
    + vm_compute. apply list_elem_of_here.
    + reflexivity.
    + vm_compute. discriminate.
  - apply (Hall [age_below; department_is_eng; eng_or_young]).
Defined.

Lemma not_a_node_raises_TypeError_witness :
  forallb is_node [ONode salary_above; not_a_filter; ONode age_below] = false ∧
  is_model_or_query (OValue (VStr "Employee")) = false ∧
  (filter [ONode salary_above; not_a_filter; ONode age_below] session0).1 =
    Raise TypeError ∧
  __init__ (OValue (VStr "Employee")) = Raise TypeError.
Proof.
  split; [reflexivity|]. split; [reflexivity|].
  apply (@not_a_node_raises_TypeError list_host); reflexivity.
Defined.

Lemma filter_not_atomic_witness :
  is_node not_a_filter = false ∧
  post_inq_filters session0 = [] ∧
  q_filters (query session0) = [department_is_eng] ∧
  filter ((ONode <$> [salary_above; age_below]) ++ [not_a_filter]) session0 =
    (Raise TypeError,
     {| query := {| q_kind := "Employee";
                    q_filters := [department_is_eng; salary_above];
                    q_rows := candidates |};
        first_inequality := Some salary_dict;
        post_inq_filters := [age_below] |}).
Proof.
  split; [reflexivity|]. split; [reflexivity|]. split; [reflexivity|].
  apply (@filter_not_atomic list_host [salary_above; age_below] not_a_filter []
           session0).
  reflexivity.
Defined.

(** The call fails and the session is no longer the one it was. *)
Example partial_update_run :
  filter [ONode salary_above; ONode age_below; not_a_filter] session0 =
    (Raise TypeError, session2) ∧
  first_inequality session0 = None ∧
  post_inq_filters session0 = [] ∧
  first_inequality session2 = Some salary_dict ∧
  post_inq_filters session2 = [age_below].
Proof. split_and!; vm_compute; reflexivity. Qed.

Lemma unsupported_operator_raises_on_iteration_witness :
  ("~" ∉ recognised_symbols) ∧
  property_class (query_kind (query session_tilde)) "age" = Some "IntegerProperty" ∧
  _make_evaluator session_tilde "age" "~" (VInt 30) = Raise NotImplementedError ∧
  (filter [ONode tilde_age] session1).1 = Ok () ∧
  __iter__ session_tilde = ([], Some NotImplementedError).
Proof.
  assert ("~" ∉ recognised_symbols) as Hsym.
  { apply (bool_decide_unpack _). vm_compute. reflexivity. }
  split; [exact Hsym|]. split; [reflexivity|].
  destruct (@unsupported_operator_raises_on_iteration list_host session_tilde
              "age" "~" "IntegerProperty" (VInt 30) Hsym eq_refl)
    as (Hmake & Hfilter & Hiter).
  split; [exact Hmake|]. split; [exact (Hfilter session1)|].
  apply (Hiter [] [] []); reflexivity.
Defined.

Lemma temporal_value_converted_back_witness :
  property_class (query_kind (query session0)) "shift" = Some "TimeProperty" ∧
  op_of_symbol "<" = Some Lt ∧
  _make_evaluator session0 "shift" "<" (VDatetime (Date 1970 1 1) noon) =
    Ok (compare_attr Lt (mkFilterDict "shift" "<" (VTime noon))).
Proof.
  split; [reflexivity|]. split; [reflexivity|].
  destruct (@temporal_value_converted_back list_host session0
              "shift" "<" "TimeProperty" (VDatetime (Date 1970 1 1) noon) Lt
              eq_refl eq_refl) as (Htime & _ & _).
  apply (Htime (Date 1970 1 1) noon); reflexivity.
Defined.

Lemma and_evaluator_is_conjunction_witness :
  and_tree nested = true ∧
  ∃ p, _check_node session0 [nested] = Ok [p] ∧
       p (employee eng (VInt 70000) (VInt 40)) = Ok (forallb id [true; false; true]).
Proof.
  split; [reflexivity|].
  apply (@and_evaluator_is_conjunction list_host session0 nested
           (employee eng (VInt 70000) (VInt 40)) [true; false; true]).
  - reflexivity.
  - repeat constructor.
Defined.

Lemma type_error_skips_the_result_witness :
  (_make_and_evaluator session_null (post_inq_filters session_null) =
     Ok (and_evaluators [compare_attr Lt (mkFilterDict "age" "<" (VInt 30))]) ∧
   and_evaluators [compare_attr Lt (mkFilterDict "age" "<" (VInt 30))] ageless =
     Raise TypeError ∧
   __iter__ session_null =
     ([employee eng (VInt 60000) (VInt 25); employee eng (VInt 55000) (VInt 29)],
      None)) ∧
  (and_evaluators [compare_attr Lt (mkFilterDict "age" "<" (VInt 30))] no_age =
     Raise AttributeError ∧
   __iter__ session_no_attribute =
     ([employee eng (VInt 60000) (VInt 25)], Some AttributeError)).
Proof.
  split.
  - split; [reflexivity|]. split; [vm_compute; reflexivity|].
    etrans.
    + apply (@type_error_skips_the_result list_host session_null
               (and_evaluators
                  [compare_attr Lt (mkFilterDict "age" "<" (VInt 30))])
               eq_refl).
      change (query_results (query session_null)) with
        [employee eng (VInt 60000) (VInt 25); ageless;
         employee eng (VInt 55000) (VInt 29)].
      repeat (apply List.Forall_cons;
              [intros e He; vm_compute in He; congruence|]).
      apply List.Forall_nil.
    + vm_compute. reflexivity.
  - split; [vm_compute; reflexivity|].
    etrans.
    + apply (@type_error_skips_the_result list_host session_no_attribute
               (and_evaluators
                  [compare_attr Lt (mkFilterDict "age" "<" (VInt 30))])
               eq_refl)
        with (before := [employee eng (VInt 60000) (VInt 25)])
             (r := no_age)
             (after := [employee eng (VInt 55000) (VInt 29)]).
      * reflexivity.
      * apply List.Forall_cons;
          [intros e He; vm_compute in He; congruence|apply List.Forall_nil].
      * vm_compute. reflexivity.
      * discriminate.
    + vm_compute. reflexivity.
Defined.

(** Under the rules of Python 3 the comparison [None < 30] raises
    [TypeError]: the candidate without an age is left out and the one after
    it is still yielded.  An [AttributeError] is not caught: it ends the
    iteration after the results already yielded. *)
Example null_age_skipped_run :
  __iter__ session_null =
    ([employee eng (VInt 60000) (VInt 25); employee eng (VInt 55000) (VInt 29)],
     None) ∧
  __iter__ session_no_attribute =
    ([employee eng (VInt 60000) (VInt 25)], Some AttributeError).
Proof. split_and!; vm_compute; reflexivity. Qed.

(** C5 as the specification words it does not hold.  The class of the
    property is looked up before the operator is: for a property the schema
    does not know, a comparison with an operator that is none of the six
    fails to compile with [KeyError], and that is what [__iter__] raises. *)
Lemma unsupported_operator_on_unknown_property_raises_KeyError :
  ("~" ∉ recognised_symbols) ∧
  _make_evaluator session1 "nickname" "~" (VStr "m") = Raise KeyError ∧
  post_inq_filters session_tilde_nickname = [tilde_nickname] ∧
  __iter__ session_tilde_nickname = ([], Some KeyError).
Proof.
  split_and!; try (vm_compute; reflexivity).
  apply (bool_decide_unpack _). vm_compute. reflexivity.
Qed.

(** C6 as the specification words it does not hold for every result.  On
    somebody whose hiring time is [None] the comparison of that time raises
    [TypeError]; the conjunction with a comparison that is [False] returns
    [False] when the latter comes first and raises when it comes second, so
    the order of the sub-nodes decides, and there is no truth value of each
    comparison to form the conjunction of. *)
Lemma conjunction_outcome_depends_on_order :
  and_tree (ConjunctionNode [salary_above; hired_before]) = true ∧
  and_tree (ConjunctionNode [hired_before; salary_above]) = true ∧
  leaf_outcome session0 unhired salary_dict = Ok false ∧
  leaf_outcome session0 unhired hired_dict = Raise TypeError ∧
  conjunction_outcome session0 [salary_above; hired_before] unhired = Ok false ∧
  conjunction_outcome session0 [hired_before; salary_above] unhired =
    Raise TypeError.
Proof. split_and!; vm_compute; reflexivity. Qed.

(** C4 as the specification words it does not hold.  A result whose [age] is
    [None] is yielded when the post filter that mentions [age] is decided
    before [age] is looked at; and a [TypeError] that no [None] is part of,
    a [datetime] compared with a string, is swallowed like any other: the
    iteration ends without an exception and without the results. *)
Lemma null_value_yielded_and_mismatch_swallowed :
  (post_inq_filters session_or = [eng_or_young] ∧
   mkFilterDict "age" "<" (VInt 30) ∈ leaves eng_or_young ∧
   ageless !! "age" = Some VNone ∧
   __iter__ session_or = ([ageless], None)) ∧
  (post_inq_filters session_text = [hired_before_text] ∧
   hired_on (Date 2019 5 1) !! "hired" = Some (VDatetime (Date 2019 5 1) noon) ∧
   leaf_outcome session_text (hired_on (Date 2019 5 1))
     (mkFilterDict "hired" "<" (VStr "2020-01-01")) = Raise TypeError ∧
   __iter__ session_text = ([], None)).
Proof.
  split_and!; try (by vm_compute).
  vm_compute. apply list_elem_of_further, list_elem_of_here.
Qed.


(** ** The further statements at concrete sessions *)

Lemma push_filter_sets_first_inequality_witness :
  first_inequality session0 = None ∧
  extractInequalities salary_and_age = [salary_dict; age_dict] ∧
  _push_filter salary_and_age session0 =
    (true,
     {| query := query session0;
        first_inequality := Some salary_dict;
        post_inq_filters := [salary_and_age] |}).
Proof.
  split; [reflexivity|]. split; [reflexivity|].
  apply (@push_filter_sets_first_inequality list_host session0 salary_and_age
           salary_dict [age_dict]); reflexivity.
Defined.

Lemma accepted_iff_inequalities_on_chosen_witness :
  first_inequality session1 = Some salary_dict ∧
  (_push_filter salary_band session1).1 = false ∧
  _push_filter age_below_parameter session1 = (false, session1).
Proof.
  split; [reflexivity|].
  destruct (@accepted_iff_inequalities_on_chosen list_host session1 salary_dict
              salary_band eq_refl) as [Hiff Hparameter].
  split.
  - apply Hiff.
    intros c Hc Hinq. cbn in Hc.
    repeat (apply elem_of_cons in Hc as [->|Hc]; [first [reflexivity | discriminate]|]).
    by apply elem_of_nil in Hc.
  - apply (Hparameter "age" "<" (VInt 1)).
Defined.

Lemma accepted_node_inequalities_on_chosen_witness :
  (_push_filter salary_above session0).1 = false ∧
  chosen_property (_push_filter salary_above session0).2 = Some "salary".
Proof.
  split; [reflexivity|].
  apply (@accepted_node_inequalities_on_chosen list_host session0 salary_above
           salary_dict).
  - reflexivity.
  - apply list_elem_of_here.
  - reflexivity.
Defined.

Lemma init_takes_first_inequality_of_query_witness :
  query_filters paid_employees =
    Some (ConjunctionNode [department_is_eng; salary_above]) ∧
  extractInequalities (ConjunctionNode [department_is_eng; salary_above]) =
    [salary_dict] ∧
  __init__ (OQuery paid_employees) =
    Ok {| query := paid_employees;
          first_inequality := Some salary_dict;
          post_inq_filters := [] |}.
Proof.
  split; [reflexivity|]. split; [reflexivity|].
  apply (@init_takes_first_inequality_of_query list_host paid_employees
           (ConjunctionNode [department_is_eng; salary_above]) salary_dict []);
    reflexivity.
Defined.

Lemma compiles_iff_every_comparison_compiles_witness :
  forallb (leaf_compiles session_tilde)
          (flat_map leaves (post_inq_filters session_tilde)) = false ∧
  ∃ e, __iter__ session_tilde = ([], Some e).
Proof.
  split; [reflexivity|].
  apply (@compiles_iff_every_comparison_compiles list_host session_tilde []).
  reflexivity.
Defined.

Lemma undeclared_property_raises_KeyError_witness :
  property_class (query_kind (query session_nickname)) "nickname" = None ∧
  _make_evaluator session_nickname "nickname" "<" (VStr "m") = Raise KeyError ∧
  __iter__ session_nickname = ([], Some KeyError).
Proof.
  split; [reflexivity|].
  destruct (@undeclared_property_raises_KeyError list_host session_nickname
              "nickname" "<" (VStr "m") eq_refl) as [Hmake Hiter].
  split; [exact Hmake|].
  apply (Hiter [] [] []); reflexivity.
Defined.

Lemma evaluator_follows_tree_witness :
  comparison_tree young_and_paid_or_eng = true ∧
  ∃ p, _check_node session0 [young_and_paid_or_eng] = Ok [p] ∧
       p operator = Ok false.
Proof.
  split; [reflexivity|].
  apply (@evaluator_follows_tree list_host session0 young_and_paid_or_eng
           operator (truth_on session0 operator)).
  - reflexivity.
  - intros c Hc. cbn in Hc.
    repeat (apply elem_of_cons in Hc as [->|Hc]; [vm_compute; reflexivity|]).
    by apply elem_of_nil in Hc.
Defined.


Lemma no_post_filters_yields_everything_witness :
  post_inq_filters session1 = [] ∧
  __iter__ session1 = (query_results (query session1), None).
Proof.
  split; [reflexivity|].
  apply (@no_post_filters_yields_everything list_host session1). reflexivity.
Defined.

Lemma and_stops_at_first_not_true_witness :
  compare_attr Gt salary_dict ageless = Ok true ∧
  compare_attr Lt age_dict ageless = Raise TypeError ∧
  and_evaluators
    ([compare_attr Gt salary_dict] ++
     compare_attr Lt age_dict ::
     [compare_attr Eq (mkFilterDict "department" "=" eng)]) ageless =
  compare_attr Lt age_dict ageless.
Proof.
  split; [vm_compute; reflexivity|]. split; [vm_compute; reflexivity|].
  apply and_stops_at_first_not_true.
  - constructor; [vm_compute; reflexivity|constructor].
  - vm_compute. discriminate.
Defined.

Lemma or_stops_at_first_not_false_witness :
  compare_attr Lt age_dict operator = Ok false ∧
  compare_attr Gt salary_dict operator = Ok true ∧
  or_evaluators
    ([compare_attr Lt age_dict] ++
     compare_attr Gt salary_dict ::
     [compare_attr Lt (mkFilterDict "nickname" "<" (VStr "m"))]) operator =
  compare_attr Gt salary_dict operator.
Proof.
  split; [vm_compute; reflexivity|]. split; [vm_compute; reflexivity|].
  apply or_stops_at_first_not_false.
  - constructor; [vm_compute; reflexivity|constructor].
  - vm_compute. discriminate.
Defined.
